(** * stable_baselines.common.cmd_util: environment constructors and
      command-line schemas

    A shallow embedding of [stable_baselines/common/cmd_util.py].

    The module is glue code: every function is a short sequence of calls into
    collaborators that live elsewhere (gym, Monitor, the vector environments,
    argparse, os.path, the logger).  The embedding keeps the code of this
    module and treats the collaborators as a free term model:

    - a call to an external constructor returns the symbolic term that names
      the call ([GymEnv "Reacher-v2"], [Monitored e filename opts], ...) and
      is recorded in a chronological list of events;
    - a call that only has an effect ([set_global_seeds], [env.seed],
      [os.makedirs]) is recorded as an event;
    - the two values the module reads from its surroundings, the logger
      directory and the MPI rank, come from a read-only [world];
    - external calls are assumed to return normally; the only exceptions of
      the model are the ones the code of this module raises by itself, namely
      Python's name resolution errors.

    Name resolution is modelled explicitly: a global name is looked up in the
    module namespace made by the imports and the [def] statements, a local
    name is read from its cell of the function frame, and both lookups raise
    the exception Python raises when the name has no value. *)

From Stdlib Require Import ZArith List String Bool Lia.
Import ListNotations.

Local Open Scope string_scope.
Local Open Scope list_scope.
Local Open Scope Z_scope.

(* ===================================================================== *)
(** ** Values and objects *)
(* ===================================================================== *)

(** Python values that the module passes around.  [VRef] is an object bound
    at module level (a module, a function, a class); [VStrOf] and [VPathJoin]
    are the results of the library calls [str(v)] and [os.path.join(a, b)]. *)
Inductive value : Type :=
| VNone
| VBool (b : bool)
| VInt (z : Z)
| VStr (s : string)
| VTuple (items : list string)           (* a tuple of strings *)
| VRef (name : string)
| VStrOf (v : value)
| VPathJoin (a b : value).

(** Keyword arguments, in the order they are written. *)
Definition kwargs : Type := list (string * value).

(** The first argument of [make_vec_env]: "the environment ID or the
    environment class". *)
Inductive env_spec : Type :=
| EnvName (env_id : string)
| EnvClass (cls : string).

(** Environments, named by the external calls that built them. *)
Inductive env : Type :=
| GymEnv (env_id : string)                        (* gym.make(env_id) *)
| ClassEnv (cls : string) (kw : kwargs)           (* env_id( **env_kwargs) *)
| AtariEnv (env_id : string)                      (* make_atari(env_id) *)
| Monitored (e : env) (filename : value) (opts : kwargs)
                                                  (* Monitor(e, filename, **opts) *)
| Flattened (e : env) (dict_keys : list string)   (* FlattenDictWrapper(e, keys) *)
| Wrapped (cls : string) (e : env)                (* wrapper_class(e) *)
| Deepmind (e : env) (kw : kwargs).               (* wrap_deepmind(e, **kw) *)

(** The closure [_init] returned by [make_env] inside [make_vec_env].  Its
    free variables are [env_id], [env_kwargs], [seed], [wrapper_class] and
    [rank].  [monitor_path] is not among them: the body of [_init] assigns to
    that name, so Python compiles it as a local variable of [_init]. *)
Record init_closure : Type := {
  ic_env_id : env_spec;
  ic_env_kwargs : kwargs;
  ic_seed : option Z;
  ic_wrapper_class : option string;
  ic_rank : Z
}.

(** The closure [_thunk] returned by [make_env] inside [make_atari_env]. *)
Record thunk_closure : Type := {
  tc_env_id : string;
  tc_seed : Z;
  tc_allow_early_resets : bool;
  tc_wrapper_kwargs : kwargs;
  tc_rank : Z
}.

(** An environment initializer: a function of no argument, kept as data. *)
Inductive thunk : Type :=
| InitThunk (c : init_closure)
| AtariThunk (c : thunk_closure).

Definition thunk_rank (th : thunk) : Z :=
  match th with
  | InitThunk c => ic_rank c
  | AtariThunk c => tc_rank c
  end.

(** Vector environments, named by the imported constructor that built them. *)
Inductive vec_env : Type :=
| DummyVec (env_fns : list thunk)
| SubprocVec (env_fns : list thunk) (start_method : option string).

Definition env_fns_of (v : vec_env) : list thunk :=
  match v with
  | DummyVec fns => fns
  | SubprocVec fns _ => fns
  end.



(* ===================================================================== *)
(** ** Effects *)
(* ===================================================================== *)

Inductive event : Type :=
| EvSetGlobalSeeds (seed : Z)                (* set_global_seeds(seed) *)
| EvCreate (e : env)                         (* an external call returned e *)
| EvSeed (target : env) (seed : Z)           (* target.seed(seed) *)
| EvActionSpaceSeed (target : env) (seed : Z)(* target.action_space.seed(seed) *)
| EvMakedirs (path : value)                  (* os.makedirs(path, exist_ok=True) *)
| EvVecEnv (v : vec_env).                    (* a vector-environment constructor
                                                was called; v names the call *)

Inductive exn : Type :=
| NameError (name : string)
| UnboundLocalError (name : string)
| ArgumentError (option_string : string).

Inductive outcome (A : Type) : Type :=
| Returned (a : A)
| Raised (e : exn).

Arguments Returned {A} a.
Arguments Raised {A} e.

Record world : Type := {
  logger_dir : option string;   (* what logger.get_dir() returns *)
  mpi_rank : Z                  (* what mpi_rank_or_zero() returns *)
}.

(** A computation reads the world, appends events and returns or raises. *)
Definition M (A : Type) : Type := world -> list event * outcome A.

Definition ret {A} (a : A) : M A := fun _ => ([], Returned a).

Definition bind {A B} (m : M A) (k : A -> M B) : M B :=
  fun w =>
    match m w with
    | (t1, Returned a) => let (t2, r) := k a w in (t1 ++ t2, r)
    | (t1, Raised e) => (t1, Raised e)
    end.

Definition raise {A} (e : exn) : M A := fun _ => ([], Raised e).

Definition emit (ev : event) : M unit := fun _ => ([ev], Returned tt).

Definition ask : M world := fun w => ([], Returned w).

Declare Scope py_scope.
Delimit Scope py_scope with py.
Notation "x <- m ;; k" := (bind m (fun x => k))
  (at level 100, m at next level, right associativity) : py_scope.
Notation "m ;; k" := (bind m (fun _ => k))
  (at level 100, right associativity) : py_scope.
Local Open Scope py_scope.

Definition trace_of {A} (r : list event * outcome A) : list event := fst r.
Definition outcome_of {A} (r : list event * outcome A) : outcome A := snd r.

(* ===================================================================== *)
(** ** Name resolution *)
(* ===================================================================== *)

(** The names bound at module level: the imports of lines 5-15 and the
    functions defined by the module. *)
Definition module_globals : list string :=
  [ "os"; "gym"; "FlattenDictWrapper"; "logger"; "Monitor";
    "set_global_seeds"; "make_atari"; "wrap_deepmind"; "mpi_rank_or_zero";
    "DummyVecEnv"; "SubprocVecEnv";
    "make_vec_env"; "make_atari_env"; "make_mujoco_env"; "make_robotics_env";
    "arg_parser"; "atari_arg_parser"; "mujoco_arg_parser";
    "robotics_arg_parser" ].

(** The builtins the module uses. *)
Definition builtins : list string :=
  [ "isinstance"; "str"; "int"; "range" ].

Definition bound_globally (name : string) : bool :=
  existsb (String.eqb name) (module_globals ++ builtins).

(** Reading a name that is not local to the running function: the module
    namespace, then the builtins, then [NameError]. *)
Definition load_global (name : string) : M value :=
  if bound_globally name then ret (VRef name) else raise (NameError name).

(** Reading a local variable from its cell; an empty cell is a local that
    has not been assigned yet. *)
Definition load_fast {A} (name : string) (cell : option A) : M A :=
  match cell with
  | Some v => ret v
  | None => raise (UnboundLocalError name)
  end.

(* ===================================================================== *)
(** ** The external collaborators *)
(* ===================================================================== *)

(** A call to an external factory: resolve the callee, record the object. *)
Definition construct (callee : string) (e : env) : M env :=
  load_global callee ;; emit (EvCreate e) ;; ret e.

Definition gym_make (env_id : string) : M env :=
  construct "gym" (GymEnv env_id).

Definition make_atari (env_id : string) : M env :=
  construct "make_atari" (AtariEnv env_id).

Definition Monitor (e : env) (filename : value) (opts : kwargs) : M env :=
  construct "Monitor" (Monitored e filename opts).

Definition FlattenDictWrapper (e : env) (dict_keys : list string) : M env :=
  construct "FlattenDictWrapper" (Flattened e dict_keys).

Definition wrap_deepmind (e : env) (kw : kwargs) : M env :=
  construct "wrap_deepmind" (Deepmind e kw).

Definition set_global_seeds (seed : Z) : M unit :=
  load_global "set_global_seeds" ;; emit (EvSetGlobalSeeds seed).

Definition mpi_rank_or_zero : M Z :=
  load_global "mpi_rank_or_zero" ;; w <- ask ;; ret (mpi_rank w).

Definition logger_get_dir : M (option string) :=
  load_global "logger" ;; w <- ask ;; ret (logger_dir w).

Definition os_path_join (a b : value) : M value :=
  load_global "os" ;; ret (VPathJoin a b).

Definition os_makedirs (path : value) : M unit :=
  load_global "os" ;; emit (EvMakedirs path).

Definition str (v : value) : M value :=
  load_global "str" ;; ret (VStrOf v).

(** Methods of an environment object. *)
Definition env_seed (target : env) (seed : Z) : M unit :=
  emit (EvSeed target seed).

Definition action_space_seed (target : env) (seed : Z) : M unit :=
  emit (EvActionSpaceSeed target seed).

(** The two vector-environment constructors are code of [vec_env], not of
    this module.  The model records the call with its arguments and returns
    the term that names it; it runs no initializer and models none of the
    constructor's own failures (on an empty list, or when an initializer
    raises).  A statement about [Returned v] below is a statement about the
    value this module passes on, under the assumption that the constructor
    returns. *)
Definition DummyVecEnv (env_fns : list thunk) : M vec_env :=
  load_global "DummyVecEnv" ;;
  emit (EvVecEnv (DummyVec env_fns)) ;;
  ret (DummyVec env_fns).

Definition SubprocVecEnv (env_fns : list thunk) (start_method : option string)
  : M vec_env :=
  load_global "SubprocVecEnv" ;;
  emit (EvVecEnv (SubprocVec env_fns start_method)) ;;
  ret (SubprocVec env_fns start_method).

(** The value of [logger.get_dir()]: a string, or [None]. *)
Definition dir_value (d : option string) : value :=
  match d with
  | None => VNone
  | Some s => VStr s
  end.

(** Python truth value of it: [None] and the empty string are false. *)
Definition dir_truthy (d : option string) : bool :=
  match d with
  | None => false
  | Some s => negb (s =? "")%string
  end.

(** [logger.get_dir() and os.path.join(logger.get_dir(), str(rank))]:
    [and] yields its left operand when that is false and evaluates the right
    operand otherwise. *)
Definition monitor_file (rank : Z) : M value :=
  d <- logger_get_dir ;;
  if dir_truthy d
  then d' <- logger_get_dir ;;
       leaf <- str (VInt rank) ;;
       os_path_join (dir_value d') leaf
  else ret (dir_value d).

(** [range(n)] over integers: empty when [n <= 0]. *)
Definition range (n : Z) : list Z :=
  map Z.of_nat (seq 0 (Z.to_nat n)).

(* ===================================================================== *)
(** ** make_vec_env (lines 18-66) *)
(* ===================================================================== *)

(** Calls through a parameter rather than a global name: [env_id( **kw)] when
    [env_id] is a class, and [wrapper_class(env)]. *)
Definition call_env_class (cls : string) (kw : kwargs) : M env :=
  emit (EvCreate (ClassEnv cls kw)) ;; ret (ClassEnv cls kw).

Definition call_wrapper_class (cls : string) (e : env) : M env :=
  emit (EvCreate (Wrapped cls e)) ;; ret (Wrapped cls e).

(** The local variables of [_init]: the names its body assigns to.  A cell
    is empty until the first assignment. *)
Record init_frame : Type := {
  fr_env : option env;
  fr_monitor_path : option value
}.

Definition fresh_frame : init_frame :=
  {| fr_env := None; fr_monitor_path := None |}.

Definition store_env (fr : init_frame) (e : env) : init_frame :=
  {| fr_env := Some e; fr_monitor_path := fr_monitor_path fr |}.

Definition store_monitor_path (fr : init_frame) (v : value) : init_frame :=
  {| fr_env := fr_env fr; fr_monitor_path := Some v |}.

Definition is_none (v : value) : bool :=
  match v with
  | VNone => true
  | _ => false
  end.

(** Lines 38-56. *)
Definition _init (c : init_closure) : M env :=
  let fr := fresh_frame in
  (* 39-42: if isinstance(env_id, str): env = gym.make(env_id)
            else: env = env_id( **env_kwargs) *)
  load_global "isinstance" ;;
  load_global "str" ;;
  e <- match ic_env_id c with
       | EnvName env_id => gym_make env_id
       | EnvClass cls => call_env_class cls (ic_env_kwargs c)
       end ;;
  let fr := store_env fr e in
  (* 43-45: if seed is not None: env.seed(seed); env.action_space.seed(seed) *)
  match ic_seed c with
  | Some seed =>
      e <- load_fast "env" (fr_env fr) ;;
      env_seed e seed ;;
      e <- load_fast "env" (fr_env fr) ;;
      action_space_seed e seed
  | None => ret tt
  end ;;
  (* 48: monitor_path = os.path.join(monitor_path, str(rank))
                        if monitor_path is not None else None
     the condition is evaluated first, then one of the two branches *)
  cond <- load_fast "monitor_path" (fr_monitor_path fr) ;;
  v <- (if negb (is_none cond)
        then a <- load_fast "monitor_path" (fr_monitor_path fr) ;;
             leaf <- str (VInt (ic_rank c)) ;;
             os_path_join a leaf
        else ret VNone) ;;
  let fr := store_monitor_path fr v in
  (* 50-51: if monitor_path is not None: os.makedirs(log_dir, exist_ok=True) *)
  cond <- load_fast "monitor_path" (fr_monitor_path fr) ;;
  (if negb (is_none cond)
   then log_dir <- load_global "log_dir" ;; os_makedirs log_dir
   else ret tt) ;;
  (* 52: env = Monitor(env, filename=monitor_path) *)
  e <- load_fast "env" (fr_env fr) ;;
  filename <- load_fast "monitor_path" (fr_monitor_path fr) ;;
  e <- Monitor e filename [] ;;
  let fr := store_env fr e in
  (* 54-55: if wrapper_class is not None: env = wrapper_class(env) *)
  fr <- match ic_wrapper_class c with
        | Some cls =>
            e <- load_fast "env" (fr_env fr) ;;
            e <- call_wrapper_class cls e ;;
            ret (store_env fr e)
        | None => ret fr
        end ;;
  (* 56: return env *)
  load_fast "env" (fr_env fr).

(** Lines 36-66.  [monitor_path] is a parameter of [make_vec_env] that no
    statement of [make_vec_env] itself reads. *)
Definition make_vec_env
    (env_id : env_spec) (n_envs : Z) (seed : option Z) (start_index : Z)
    (use_subprocess : bool) (start_method : option string)
    (monitor_path : option string) (wrapper_class : option string)
    (env_kwargs : option kwargs) : M vec_env :=
  (* 36: env_kwargs = {} if env_kwargs is None else env_kwargs *)
  let env_kwargs := match env_kwargs with None => [] | Some kw => kw end in
  (* 37-57: def make_env(rank): ... return _init *)
  let make_env (rank : Z) : thunk :=
    InitThunk {| ic_env_id := env_id; ic_env_kwargs := env_kwargs;
                 ic_seed := seed; ic_wrapper_class := wrapper_class;
                 ic_rank := rank |} in
  (* 59-60 *)
  match seed with
  | Some s => set_global_seeds s
  | None => ret tt
  end ;;
  (* 62-66 *)
  if (n_envs =? 1) || negb use_subprocess
  then DummyVecEnv (map (fun i => make_env (i + start_index)) (range n_envs))
  else SubprocVecEnv (map (fun i => make_env (i + start_index)) (range n_envs))
                     start_method.

(* ===================================================================== *)
(** ** make_atari_env (lines 69-105) *)
(* ===================================================================== *)

(** Lines 91-96. *)
Definition _thunk (c : thunk_closure) : M env :=
  e <- make_atari (tc_env_id c) ;;
  env_seed e (tc_seed c + tc_rank c) ;;
  filename <- monitor_file (tc_rank c) ;;
  e <- Monitor e filename
         [("allow_early_resets", VBool (tc_allow_early_resets c))] ;;
  wrap_deepmind e (tc_wrapper_kwargs c).

Definition make_atari_env
    (env_id : string) (num_env : Z) (seed : Z) (wrapper_kwargs : option kwargs)
    (start_index : Z) (allow_early_resets : bool)
    (start_method : option string) (use_subprocess : bool) : M vec_env :=
  (* 87-88 *)
  let wrapper_kwargs :=
    match wrapper_kwargs with None => [] | Some kw => kw end in
  (* 90-97 *)
  let make_env (rank : Z) : thunk :=
    AtariThunk {| tc_env_id := env_id; tc_seed := seed;
                  tc_allow_early_resets := allow_early_resets;
                  tc_wrapper_kwargs := wrapper_kwargs; tc_rank := rank |} in
  (* 98 *)
  set_global_seeds seed ;;
  (* 101-105 *)
  if (num_env =? 1) || negb use_subprocess
  then DummyVecEnv (map (fun i => make_env (i + start_index)) (range num_env))
  else SubprocVecEnv (map (fun i => make_env (i + start_index)) (range num_env))
                     start_method.

(** Invoking an initializer, as a vector environment does. *)
Definition call_thunk (th : thunk) : M env :=
  match th with
  | InitThunk c => _init c
  | AtariThunk c => _thunk c
  end.

(* ===================================================================== *)
(** ** make_mujoco_env (lines 108-121) and make_robotics_env (124-141) *)
(* ===================================================================== *)

Definition make_mujoco_env
    (env_id : string) (seed : Z) (allow_early_resets : bool) : M env :=
  (* 117 *)
  r <- mpi_rank_or_zero ;;
  set_global_seeds (seed + 10000 * r) ;;
  (* 118 *)
  e <- gym_make env_id ;;
  (* 119: the arguments of Monitor, left to right *)
  d <- logger_get_dir ;;
  rank <- load_global "rank" ;;
  leaf <- str rank ;;
  filename <- os_path_join (dir_value d) leaf ;;
  e <- Monitor e filename [("allow_early_resets", VBool allow_early_resets)] ;;
  (* 120-121 *)
  env_seed e seed ;;
  ret e.

Definition make_robotics_env
    (env_id : string) (seed : Z) (rank : Z) (allow_early_resets : bool)
  : M env :=
  (* 134-135 *)
  set_global_seeds seed ;;
  e <- gym_make env_id ;;
  (* 136 *)
  e <- FlattenDictWrapper e ["observation"; "desired_goal"] ;;
  (* 137-139 *)
  filename <- monitor_file rank ;;
  e <- Monitor e filename
         [("info_keywords", VTuple ["is_success"]);
          ("allow_early_resets", VBool allow_early_resets)] ;;
  (* 140-141 *)
  env_seed e seed ;;
  ret e.

(** The default values written in the [def] lines: what a parameter is bound
    to when the call leaves it out. *)
Module Defaults.
Definition n_envs : Z := 1.                          (* make_vec_env *)
Definition start_index : Z := 0.                     (* both vector makers *)
Definition vec_use_subprocess : bool := false.       (* make_vec_env *)
Definition atari_use_subprocess : bool := true.      (* make_atari_env *)
Definition allow_early_resets : bool := true.
Definition rank : Z := 0.                            (* make_robotics_env *)
End Defaults.

(* ===================================================================== *)
(** ** The argument parsers (lines 144-191) *)
(* ===================================================================== *)

(** One [add_argument] declaration: the option string and the keyword
    arguments this module passes ([None] where a keyword is not passed). *)
Record argument : Type := {
  option_string : string;
  arg_help : option string;
  arg_type : option string;
  arg_default : value;
  arg_action : option string
}.

Record ArgumentParser : Type := {
  formatter_class : string;
  arguments : list argument     (* in declaration order *)
}.

(** Lines 150-151. *)
Definition arg_parser : M ArgumentParser :=
  ret {| formatter_class := "ArgumentDefaultsHelpFormatter"; arguments := [] |}.

(** [parser.add_argument(...)]: the parser is updated in place, which the
    model renders by returning the updated parser; argparse refuses an option
    string that is already declared. *)
Definition add_argument (p : ArgumentParser) (a : argument) : M ArgumentParser :=
  if existsb (fun b => (option_string b =? option_string a)%string) (arguments p)
  then raise (ArgumentError (option_string a))
  else ret {| formatter_class := formatter_class p;
              arguments := arguments p ++ [a] |}.

(** [int(1e7)] and [int(1e6)]: the float literals are integral, and [int] of
    an integral float is that integer. *)
Definition int_1e7 : M Z := load_global "int" ;; ret 10000000.
Definition int_1e6 : M Z := load_global "int" ;; ret 1000000.

(** [type=int], [type=str]. *)
Definition type_named (name : string) : M (option string) :=
  load_global name ;; ret (Some name).

(** Lines 160-164. *)
Definition atari_arg_parser : M ArgumentParser :=
  load_global "arg_parser" ;;
  parser <- arg_parser ;;
  parser <- add_argument parser
    {| option_string := "--env"; arg_help := Some "environment ID";
       arg_type := None; arg_default := VStr "BreakoutNoFrameskip-v4";
       arg_action := None |} ;;
  ty <- type_named "int" ;;
  parser <- add_argument parser
    {| option_string := "--seed"; arg_help := Some "RNG seed";
       arg_type := ty; arg_default := VInt 0; arg_action := None |} ;;
  ty <- type_named "int" ;;
  n <- int_1e7 ;;
  parser <- add_argument parser
    {| option_string := "--num-timesteps"; arg_help := None;
       arg_type := ty; arg_default := VInt n; arg_action := None |} ;;
  ret parser.

(** Lines 173-178. *)
Definition mujoco_arg_parser : M ArgumentParser :=
  load_global "arg_parser" ;;
  parser <- arg_parser ;;
  ty <- type_named "str" ;;
  parser <- add_argument parser
    {| option_string := "--env"; arg_help := Some "environment ID";
       arg_type := ty; arg_default := VStr "Reacher-v2";
       arg_action := None |} ;;
  ty <- type_named "int" ;;
  parser <- add_argument parser
    {| option_string := "--seed"; arg_help := Some "RNG seed";
       arg_type := ty; arg_default := VInt 0; arg_action := None |} ;;
  ty <- type_named "int" ;;
  n <- int_1e6 ;;
  parser <- add_argument parser
    {| option_string := "--num-timesteps"; arg_help := None;
       arg_type := ty; arg_default := VInt n; arg_action := None |} ;;
  parser <- add_argument parser
    {| option_string := "--play"; arg_help := None; arg_type := None;
       arg_default := VBool false; arg_action := Some "store_true" |} ;;
  ret parser.

(** Lines 187-191. *)
Definition robotics_arg_parser : M ArgumentParser :=
  load_global "arg_parser" ;;
  parser <- arg_parser ;;
  ty <- type_named "str" ;;
  parser <- add_argument parser
    {| option_string := "--env"; arg_help := Some "environment ID";
       arg_type := ty; arg_default := VStr "FetchReach-v0";
       arg_action := None |} ;;
  ty <- type_named "int" ;;
  parser <- add_argument parser
    {| option_string := "--seed"; arg_help := Some "RNG seed";
       arg_type := ty; arg_default := VInt 0; arg_action := None |} ;;
  ty <- type_named "int" ;;
  n <- int_1e6 ;;
  parser <- add_argument parser
    {| option_string := "--num-timesteps"; arg_help := None;
       arg_type := ty; arg_default := VInt n; arg_action := None |} ;;
  ret parser.

(** Reading a schema: the declared option strings, and the type and default
    declared for one of them. *)
Definition option_strings (p : ArgumentParser) : list string :=
  map option_string (arguments p).

Definition find_argument (p : ArgumentParser) (opt : string) : option argument :=
  find (fun a => (option_string a =? opt)%string) (arguments p).

Definition default_of (p : ArgumentParser) (opt : string) : option value :=
  option_map arg_default (find_argument p opt).

Definition type_of (p : ArgumentParser) (opt : string) : option (option string) :=
  option_map arg_type (find_argument p opt).

(* ===================================================================== *)
(** ** Calls that leave defaulted arguments out *)
(* ===================================================================== *)

Definition or_default {A} (given : option A) (dflt : A) : A :=
  match given with
  | Some a => a
  | None => dflt
  end.

(** [make_robotics_env(env_id, seed, rank=0, allow_early_resets=True)] called
    with any subset of its two defaulted arguments. *)
Definition make_robotics_env_call
    (env_id : string) (seed : Z) (rank : option Z)
    (allow_early_resets : option bool) : M env :=
  make_robotics_env env_id seed
    (or_default rank Defaults.rank)
    (or_default allow_early_resets Defaults.allow_early_resets).

(* ===================================================================== *)
(** ** Observations on traces *)
(* ===================================================================== *)

(** The [env.seed] calls of a trace: which object was seeded with what. *)
Fixpoint seeds_in (t : list event) : list (env * Z) :=
  match t with
  | [] => []
  | EvSeed target s :: t' => (target, s) :: seeds_in t'
  | _ :: t' => seeds_in t'
  end.

(** The vector environments built in a trace. *)
Fixpoint vec_envs_in (t : list event) : list vec_env :=
  match t with
  | [] => []
  | EvVecEnv v :: t' => v :: vec_envs_in t'
  | _ :: t' => vec_envs_in t'
  end.

(** The [set_global_seeds] calls of a trace, in order. *)
Fixpoint global_seeds_in (t : list event) : list Z :=
  match t with
  | [] => []
  | EvSetGlobalSeeds s :: t' => s :: global_seeds_in t'
  | _ :: t' => global_seeds_in t'
  end.

(** Did the run reach line 52 (the Monitor call) or line 51 (os.makedirs)? *)
Definition is_monitor_call (ev : event) : bool :=
  match ev with
  | EvCreate (Monitored _ _ _) => true
  | _ => false
  end.

Definition is_makedirs_call (ev : event) : bool :=
  match ev with
  | EvMakedirs _ => true
  | _ => false
  end.

(** What an initializer does before it fails: it creates the environment and,
    when a seed is given, seeds it and its action space. *)
Definition init_base (c : init_closure) : env :=
  match ic_env_id c with
  | EnvName env_id => GymEnv env_id
  | EnvClass cls => ClassEnv cls (ic_env_kwargs c)
  end.

Definition init_prefix (c : init_closure) : list event :=
  EvCreate (init_base c) ::
  match ic_seed c with
  | Some s => [EvSeed (init_base c) s; EvActionSpaceSeed (init_base c) s]
  | None => []
  end.

(** The description of the result that C6 gives: one of the two imported
    constructors applied to the thunks, [start_method] going to
    SubprocVecEnv only. *)
Inductive constructor : Type := UseDummyVecEnv | UseSubprocVecEnv.

Definition constructed (k : constructor) (thunks : list thunk)
    (start_method : option string) : vec_env :=
  match k with
  | UseDummyVecEnv => DummyVec thunks
  | UseSubprocVecEnv => SubprocVec thunks start_method
  end.

(** A world used for the concrete runs below. *)
Definition sample_world : world :=
  {| logger_dir := Some "/tmp/log"; mpi_rank := 0 |}.

(* ===================================================================== *)
(** ** Basic facts *)
(* ===================================================================== *)

Lemma range_length (n : Z) : List.length (range n) = Z.to_nat n.
Proof. unfold range. now rewrite length_map, length_seq. Qed.

Lemma range_nth_error (n : Z) (k : nat) :
  (k < Z.to_nat n)%nat -> nth_error (range n) k = Some (Z.of_nat k).
Proof.
  intros Hk. unfold range.
  rewrite nth_error_map, nth_error_seq.
  apply Nat.ltb_lt in Hk. now rewrite Hk.
Qed.

(** Every name the module calls through is bound: the imports and builtins
    resolve, so the order in which a callee and its arguments are looked up
    cannot be observed. *)
Lemma callees_resolve :
  forallb bound_globally
    [ "gym"; "make_atari"; "Monitor"; "FlattenDictWrapper"; "wrap_deepmind";
      "set_global_seeds"; "mpi_rank_or_zero"; "logger"; "os"; "str"; "int";
      "isinstance"; "DummyVecEnv"; "SubprocVecEnv"; "arg_parser" ] = true.
Proof. reflexivity. Qed.

(** The two names that nothing binds at module level. *)
Lemma unbound_names :
  bound_globally "rank" = false /\ bound_globally "log_dir" = false.
Proof. split; reflexivity. Qed.

(** What [monitor_file] evaluates to, by cases on the logger directory. *)
Lemma monitor_file_run (rank : Z) (w : world) :
  monitor_file rank w =
    ([], Returned (if dir_truthy (logger_dir w)
                   then VPathJoin (dir_value (logger_dir w)) (VStrOf (VInt rank))
                   else dir_value (logger_dir w))).
Proof.
  unfold monitor_file, bind, logger_get_dir, ask, str, os_path_join, bind.
  cbn. destruct (dir_truthy (logger_dir w)); reflexivity.
Qed.

(* ===================================================================== *)
(** ** make_mujoco_env *)
(* ===================================================================== *)

(** C9.  For every [env_id] and [seed], [make_mujoco_env] raises [NameError]
    on the name [rank] while it evaluates the arguments of the Monitor call:
    [rank] is bound nowhere in scope.  The failure is not atomic: by then
    [set_global_seeds(seed + 10000 * mpi_rank_or_zero())] and
    [gym.make(env_id)] have run, and nothing else has. *)
Theorem make_mujoco_env_name_error
    (env_id : string) (seed : Z) (allow_early_resets : bool) (w : world) :
  bound_globally "rank" = false /\
  make_mujoco_env env_id seed allow_early_resets w =
    ([EvSetGlobalSeeds (seed + 10000 * mpi_rank w); EvCreate (GymEnv env_id)],
     Raised (NameError "rank")).
Proof. split; reflexivity. Qed.

(** C3, at the call [make_mujoco_env('Reacher-v2', 0)]: the call raises
    instead of returning; no Monitor is created and [env.seed] is never
    called. *)
Theorem make_mujoco_env_reacher_raises :
  let r := make_mujoco_env "Reacher-v2" 0 Defaults.allow_early_resets
             sample_world in
  outcome_of r = Raised (NameError "rank") /\
  existsb is_monitor_call (trace_of r) = false /\
  seeds_in (trace_of r) = [].
Proof. repeat split; reflexivity. Qed.

(* ===================================================================== *)
(** ** make_robotics_env *)
(* ===================================================================== *)

(** C10.  For every [env_id], [seed] and [rank], [make_robotics_env] returns
    [Monitor(FlattenDictWrapper(gym.make(env_id)))]: the flattening wrapper
    gets the keys ['observation', 'desired_goal'], the Monitor gets
    [info_keywords=('is_success',)], the objects are created in that order,
    and the last thing that happens is [env.seed(seed)] on the Monitor, the
    outermost wrapper.  A call that leaves [rank] out runs with rank 0. *)
Theorem make_robotics_env_wrapping
    (env_id : string) (seed rank : Z) (allow_early_resets : bool) (w : world) :
  let base := GymEnv env_id in
  let flat := Flattened base ["observation"; "desired_goal"] in
  (exists filename : value,
     let monitored :=
       Monitored flat filename
         [("info_keywords", VTuple ["is_success"]);
          ("allow_early_resets", VBool allow_early_resets)] in
     make_robotics_env env_id seed rank allow_early_resets w =
       ([EvSetGlobalSeeds seed; EvCreate base; EvCreate flat;
         EvCreate monitored; EvSeed monitored seed],
        Returned monitored)) /\
  make_robotics_env_call env_id seed None (Some allow_early_resets) w =
    make_robotics_env env_id seed 0 allow_early_resets w.
Proof.
  cbv zeta. split; [| reflexivity].
  exists (if dir_truthy (logger_dir w)
          then VPathJoin (dir_value (logger_dir w)) (VStrOf (VInt rank))
          else dir_value (logger_dir w)).
  unfold make_robotics_env, bind at 1 2 3 4.
  cbn -[monitor_file].
  rewrite monitor_file_run. reflexivity.
Qed.

(* ===================================================================== *)
(** ** The argument parsers *)
(* ===================================================================== *)

(** C5.  Each of the three parser makers returns, in every world and without
    any effect, one fixed schema: atari declares --env (default
    'BreakoutNoFrameskip-v4'), --seed (int, 0) and --num-timesteps
    (int, 10**7); mujoco declares --env (default 'Reacher-v2'), --seed
    (int, 0), --num-timesteps (int, 10**6) and --play (default False);
    robotics declares --env (default 'FetchReach-v0'), --seed (int, 0) and
    --num-timesteps (int, 10**6). *)
Theorem arg_parsers_static_schema :
  (exists p, (forall w, atari_arg_parser w = ([], Returned p)) /\
     option_strings p = ["--env"; "--seed"; "--num-timesteps"] /\
     default_of p "--env" = Some (VStr "BreakoutNoFrameskip-v4") /\
     type_of p "--seed" = Some (Some "int") /\
     default_of p "--seed" = Some (VInt 0) /\
     type_of p "--num-timesteps" = Some (Some "int") /\
     default_of p "--num-timesteps" = Some (VInt (10 ^ 7))) /\
  (exists p, (forall w, mujoco_arg_parser w = ([], Returned p)) /\
     option_strings p = ["--env"; "--seed"; "--num-timesteps"; "--play"] /\
     default_of p "--env" = Some (VStr "Reacher-v2") /\
     type_of p "--seed" = Some (Some "int") /\
     default_of p "--seed" = Some (VInt 0) /\
     type_of p "--num-timesteps" = Some (Some "int") /\
     default_of p "--num-timesteps" = Some (VInt (10 ^ 6)) /\
     default_of p "--play" = Some (VBool false)) /\
  (exists p, (forall w, robotics_arg_parser w = ([], Returned p)) /\
     option_strings p = ["--env"; "--seed"; "--num-timesteps"] /\
     default_of p "--env" = Some (VStr "FetchReach-v0") /\
     type_of p "--seed" = Some (Some "int") /\
     default_of p "--seed" = Some (VInt 0) /\
     type_of p "--num-timesteps" = Some (Some "int") /\
     default_of p "--num-timesteps" = Some (VInt (10 ^ 6))).
Proof.
  repeat split; eexists; (split; [intro w; vm_compute; reflexivity |]);
    repeat split; reflexivity.
Qed.

(* ===================================================================== *)
(** ** The initializers of make_vec_env *)
(* ===================================================================== *)

(** Line 48 reads the local [monitor_path] while its cell is still empty. *)
Lemma init_run (c : init_closure) (w : world) :
  _init c w = (init_prefix c, Raised (UnboundLocalError "monitor_path")).
Proof.
  destruct c as [[env_id | cls] kw [s |] wc rank]; reflexivity.
Qed.

Lemma init_prefix_no_monitor (c : init_closure) :
  existsb is_monitor_call (init_prefix c) = false /\
  existsb is_makedirs_call (init_prefix c) = false.
Proof.
  destruct c as [[env_id | cls] kw [s |] wc rank]; split; reflexivity.
Qed.

(** The vector environment [make_vec_env] hands back, whatever its kind,
    holds the initializers [make_env(i + start_index)]. *)
Lemma make_vec_env_run
    (env_id : env_spec) (n_envs : Z) (seed : option Z) (start_index : Z)
    (use_subprocess : bool) (start_method : option string)
    (monitor_path wrapper_class : option string) (env_kwargs : option kwargs)
    (w : world) :
  let fns :=
    map (fun i => InitThunk {| ic_env_id := env_id;
                               ic_env_kwargs := or_default env_kwargs [];
                               ic_seed := seed;
                               ic_wrapper_class := wrapper_class;
                               ic_rank := i + start_index |})
        (range n_envs) in
  let v := if (n_envs =? 1) || negb use_subprocess
           then DummyVec fns else SubprocVec fns start_method in
  make_vec_env env_id n_envs seed start_index use_subprocess start_method
    monitor_path wrapper_class env_kwargs w =
  (match seed with Some s => [EvSetGlobalSeeds s] | None => [] end
     ++ [EvVecEnv v], Returned v).
Proof.
  cbv zeta. unfold make_vec_env.
  destruct env_kwargs as [kw |], seed as [s |];
    destruct ((n_envs =? 1) || negb use_subprocess); reflexivity.
Qed.

Lemma make_atari_env_run
    (env_id : string) (num_env seed : Z) (wrapper_kwargs : option kwargs)
    (start_index : Z) (allow_early_resets : bool)
    (start_method : option string) (use_subprocess : bool) (w : world) :
  let fns :=
    map (fun i => AtariThunk {| tc_env_id := env_id; tc_seed := seed;
                                tc_allow_early_resets := allow_early_resets;
                                tc_wrapper_kwargs := or_default wrapper_kwargs [];
                                tc_rank := i + start_index |})
        (range num_env) in
  let v := if (num_env =? 1) || negb use_subprocess
           then DummyVec fns else SubprocVec fns start_method in
  make_atari_env env_id num_env seed wrapper_kwargs start_index
    allow_early_resets start_method use_subprocess w =
  ([EvSetGlobalSeeds seed; EvVecEnv v], Returned v).
Proof.
  cbv zeta. unfold make_atari_env.
  destruct wrapper_kwargs as [kw |];
    destruct ((num_env =? 1) || negb use_subprocess); reflexivity.
Qed.

(** C8.  Whatever the arguments of [make_vec_env] (with or without a
    [monitor_path]), every initializer it produces raises
    [UnboundLocalError] on [monitor_path] when it is invoked: the name is
    local to [_init] and line 48 reads it before assigning it.  The run stops
    after creating (and possibly seeding) the environment, so neither the
    Monitor call nor the [os.makedirs(log_dir)] branch is reached. *)
Theorem make_vec_env_initializers_raise
    (env_id : env_spec) (n_envs : Z) (seed : option Z) (start_index : Z)
    (use_subprocess : bool) (start_method : option string)
    (monitor_path wrapper_class : option string) (env_kwargs : option kwargs)
    (w : world) :
  fr_monitor_path fresh_frame = None /\
  exists v,
    outcome_of (make_vec_env env_id n_envs seed start_index use_subprocess
                  start_method monitor_path wrapper_class env_kwargs w)
      = Returned v /\
    Forall (fun th => forall w' : world,
              outcome_of (call_thunk th w')
                = Raised (UnboundLocalError "monitor_path") /\
              existsb is_monitor_call (trace_of (call_thunk th w')) = false /\
              existsb is_makedirs_call (trace_of (call_thunk th w')) = false)
           (env_fns_of v).
Proof.
  split; [reflexivity |].
  rewrite make_vec_env_run. cbv zeta. eexists. split; [reflexivity |].
  assert (Hall : forall fns : list Z, forall mk : Z -> init_closure,
            Forall (fun th => forall w' : world,
               outcome_of (call_thunk th w')
                 = Raised (UnboundLocalError "monitor_path") /\
               existsb is_monitor_call (trace_of (call_thunk th w')) = false /\
               existsb is_makedirs_call (trace_of (call_thunk th w')) = false)
              (map (fun i => InitThunk (mk i)) fns)).
  { intros fns mk. induction fns as [| i fns IH]; constructor; [| exact IH].
    intros w'. cbn [call_thunk]. rewrite init_run.
    destruct (init_prefix_no_monitor (mk i)) as [Hm Hd].
    repeat split; assumption. }
  destruct ((n_envs =? 1) || negb use_subprocess); cbn [env_fns_of];
    apply (Hall (range n_envs)
             (fun i => {| ic_env_id := env_id;
                          ic_env_kwargs := or_default env_kwargs [];
                          ic_seed := seed;
                          ic_wrapper_class := wrapper_class;
                          ic_rank := i + start_index |})).
Qed.

(** C1, at the call [make_vec_env('CartPole-v1')]: the vector environment
    gets one initializer, and invoking it raises before any Monitor is
    created, so no monitored environment comes out of it. *)
Theorem make_vec_env_cartpole_not_monitored :
  exists th,
    outcome_of (make_vec_env (EnvName "CartPole-v1") Defaults.n_envs None
                  Defaults.start_index Defaults.vec_use_subprocess None None
                  None None sample_world)
      = Returned (DummyVec [th]) /\
    call_thunk th sample_world =
      ([EvCreate (GymEnv "CartPole-v1")],
       Raised (UnboundLocalError "monitor_path")).
Proof. eexists. split; reflexivity. Qed.

(* ===================================================================== *)
(** ** Which vector environment is built *)
(* ===================================================================== *)






(** C6.  The value [make_vec_env] and [make_atari_env] return is the value of
    one constructor call, [DummyVecEnv(thunks)] or
    [SubprocVecEnv(thunks, start_method=start_method)], where [thunks] is the
    list [[make_env(i + start_index) for i in range(n)]]; that call is the
    only vector environment built during the run. *)
Theorem vec_env_is_imported_constructor :
  (forall env_id n_envs seed start_index use_subprocess start_method
          monitor_path wrapper_class env_kwargs w,
     let thunks :=
       map (fun i => InitThunk {| ic_env_id := env_id;
                                  ic_env_kwargs := or_default env_kwargs [];
                                  ic_seed := seed;
                                  ic_wrapper_class := wrapper_class;
                                  ic_rank := i + start_index |})
           (range n_envs) in
     let r := make_vec_env env_id n_envs seed start_index use_subprocess
                start_method monitor_path wrapper_class env_kwargs w in
     exists k,
       outcome_of r = Returned (constructed k thunks start_method) /\
       vec_envs_in (trace_of r) = [constructed k thunks start_method]) /\
  (forall env_id num_env seed wrapper_kwargs start_index allow_early_resets
          start_method use_subprocess w,
     let thunks :=
       map (fun i => AtariThunk {| tc_env_id := env_id; tc_seed := seed;
                                   tc_allow_early_resets := allow_early_resets;
                                   tc_wrapper_kwargs :=
                                     or_default wrapper_kwargs [];
                                   tc_rank := i + start_index |})
           (range num_env) in
     let r := make_atari_env env_id num_env seed wrapper_kwargs start_index
                allow_early_resets start_method use_subprocess w in
     exists k,
       outcome_of r = Returned (constructed k thunks start_method) /\
       vec_envs_in (trace_of r) = [constructed k thunks start_method]).
Proof.
  split; intros; subst r thunks.
  - rewrite make_vec_env_run. cbv zeta.
    destruct ((n_envs =? 1) || negb use_subprocess);
      [exists UseDummyVecEnv | exists UseSubprocVecEnv];
      destruct seed; split; reflexivity.
  - rewrite make_atari_env_run. cbv zeta.
    destruct ((num_env =? 1) || negb use_subprocess);
      [exists UseDummyVecEnv | exists UseSubprocVecEnv];
      split; reflexivity.
Qed.

(* ===================================================================== *)
(** ** Ranks and seeds of the initializers *)
(* ===================================================================== *)

Section Comprehension.

(** The comprehension [[make_env(i + start_index) for i in range(n)]]. *)
Variable make_env : Z -> thunk.
Variables n start_index : Z.

Lemma comprehension_length :
  List.length (map (fun i => make_env (i + start_index)) (range n))
    = Z.to_nat n.
Proof. now rewrite length_map, range_length. Qed.

Lemma comprehension_nth (k : Z) :
  0 <= k < n ->
  nth_error (map (fun i => make_env (i + start_index)) (range n)) (Z.to_nat k)
    = Some (make_env (k + start_index)).
Proof.
  intros Hk. rewrite nth_error_map, range_nth_error by lia.
  cbn. now rewrite Z2Nat.id by lia.
Qed.

Hypothesis rank_of_make_env : forall r, thunk_rank (make_env r) = r.

Lemma comprehension_ranks (k : Z) :
  0 <= k < n ->
  nth_error
    (map thunk_rank (map (fun i => make_env (i + start_index)) (range n)))
    (Z.to_nat k)
    = Some (start_index + k).
Proof.
  intros Hk. rewrite nth_error_map, comprehension_nth by exact Hk.
  cbn. rewrite rank_of_make_env. f_equal. lia.
Qed.

End Comprehension.

(** A run of an Atari initializer. *)
Lemma thunk_run (c : thunk_closure) (w : world) :
  exists filename,
    let base := AtariEnv (tc_env_id c) in
    let monitored :=
      Monitored base filename
        [("allow_early_resets", VBool (tc_allow_early_resets c))] in
    _thunk c w =
      ([EvCreate base; EvSeed base (tc_seed c + tc_rank c);
        EvCreate monitored; EvCreate (Deepmind monitored (tc_wrapper_kwargs c))],
       Returned (Deepmind monitored (tc_wrapper_kwargs c))).
Proof.
  exists (if dir_truthy (logger_dir w)
          then VPathJoin (dir_value (logger_dir w)) (VStrOf (VInt (tc_rank c)))
          else dir_value (logger_dir w)).
  unfold _thunk, bind at 1 2 3.
  cbn -[monitor_file].
  rewrite monitor_file_run. reflexivity.
Qed.

(** C4.  In every call of [make_atari_env], [set_global_seeds(seed)] runs
    once and is followed only by the construction of the vector environment;
    and for every [i] with [0 <= i < num_env] the [i]-th initializer, when it
    is invoked, makes a single [env.seed] call, on the freshly made Atari
    environment and with [seed + start_index + i]. *)
Theorem make_atari_env_seeding
    (env_id : string) (num_env seed : Z) (wrapper_kwargs : option kwargs)
    (start_index : Z) (allow_early_resets : bool)
    (start_method : option string) (use_subprocess : bool) (w : world) :
  exists v,
    make_atari_env env_id num_env seed wrapper_kwargs start_index
      allow_early_resets start_method use_subprocess w
      = ([EvSetGlobalSeeds seed; EvVecEnv v], Returned v) /\
    forall (i : Z) (w' : world),
      0 <= i < num_env ->
      exists th,
        nth_error (env_fns_of v) (Z.to_nat i) = Some th /\
        seeds_in (trace_of (call_thunk th w'))
          = [(AtariEnv env_id, seed + start_index + i)].
Proof.
  rewrite make_atari_env_run. cbv zeta. eexists. split; [reflexivity |].
  intros i w' Hi.
  set (mk := fun r => AtariThunk
               {| tc_env_id := env_id; tc_seed := seed;
                  tc_allow_early_resets := allow_early_resets;
                  tc_wrapper_kwargs := or_default wrapper_kwargs [];
                  tc_rank := r |}).
  exists (mk (i + start_index)). split.
  - destruct ((num_env =? 1) || negb use_subprocess); cbn [env_fns_of];
      apply (comprehension_nth mk num_env start_index i Hi).
  - unfold mk. cbn [call_thunk].
    destruct (thunk_run
                {| tc_env_id := env_id; tc_seed := seed;
                   tc_allow_early_resets := allow_early_resets;
                   tc_wrapper_kwargs := or_default wrapper_kwargs [];
                   tc_rank := i + start_index |} w') as [filename Hrun].
    cbv zeta in Hrun. rewrite Hrun. cbn.
    replace (seed + (i + start_index)) with (seed + start_index + i) by lia.
    reflexivity.
Qed.

(** C4 at [make_atari_env('PongNoFrameskip-v4', 3, 5, start_index=10)]: the
    initializer of index 1 seeds its environment with 5 + 10 + 1. *)
Lemma make_atari_env_seeding_witness :
  0 <= 1 < 3 /\
  exists v th,
    outcome_of (make_atari_env "PongNoFrameskip-v4" 3 5 None 10 true None true
                  sample_world) = Returned v /\
    nth_error (env_fns_of v) 1 = Some th /\
    seeds_in (trace_of (call_thunk th sample_world))
      = [(AtariEnv "PongNoFrameskip-v4", 16)].
Proof.
  split; [lia |].
  destruct (make_atari_env_seeding "PongNoFrameskip-v4" 3 5 None 10 true None
              true sample_world) as [v [Hrun Hith]].
  destruct (Hith 1 sample_world ltac:(lia)) as [th [Hnth Hseed]].
  exists v, th. rewrite Hrun. repeat split; assumption.
Defined.

(** C7.  For every [n_envs >= 0] and [start_index], [make_vec_env] and
    [make_atari_env] build exactly [n_envs] initializers, and the one at
    position [k] has rank [start_index + k]: the ranks are [start_index],
    [start_index + 1], ..., [start_index + n_envs - 1] in this order. *)
Theorem initializers_consecutive_ranks (n_envs start_index : Z) :
  0 <= n_envs ->
  (forall env_id seed use_subprocess start_method monitor_path wrapper_class
          env_kwargs w,
     exists v,
       outcome_of (make_vec_env env_id n_envs seed start_index use_subprocess
                     start_method monitor_path wrapper_class env_kwargs w)
         = Returned v /\
       Z.of_nat (List.length (env_fns_of v)) = n_envs /\
       forall k, 0 <= k < n_envs ->
         nth_error (map thunk_rank (env_fns_of v)) (Z.to_nat k)
           = Some (start_index + k)) /\
  (forall env_id seed wrapper_kwargs allow_early_resets start_method
          use_subprocess w,
     exists v,
       outcome_of (make_atari_env env_id n_envs seed wrapper_kwargs
                     start_index allow_early_resets start_method
                     use_subprocess w)
         = Returned v /\
       Z.of_nat (List.length (env_fns_of v)) = n_envs /\
       forall k, 0 <= k < n_envs ->
         nth_error (map thunk_rank (env_fns_of v)) (Z.to_nat k)
           = Some (start_index + k)).
Proof.
  intros Hn. split; intros.
  - rewrite make_vec_env_run. cbv zeta. eexists. split; [reflexivity |].
    set (mk := fun r => InitThunk
                 {| ic_env_id := env_id;
                    ic_env_kwargs := or_default env_kwargs [];
                    ic_seed := seed; ic_wrapper_class := wrapper_class;
                    ic_rank := r |}).
    destruct ((n_envs =? 1) || negb use_subprocess); cbn [env_fns_of];
      (split;
       [ transitivity (Z.of_nat (Z.to_nat n_envs));
         [ f_equal; exact (comprehension_length mk n_envs start_index) | lia ]
       | intros k Hk;
         apply (comprehension_ranks mk n_envs start_index);
         [reflexivity | exact Hk] ]).
  - rewrite make_atari_env_run. cbv zeta. eexists. split; [reflexivity |].
    set (mk := fun r => AtariThunk
                 {| tc_env_id := env_id; tc_seed := seed;
                    tc_allow_early_resets := allow_early_resets;
                    tc_wrapper_kwargs := or_default wrapper_kwargs [];
                    tc_rank := r |}).
    destruct ((n_envs =? 1) || negb use_subprocess); cbn [env_fns_of];
      (split;
       [ transitivity (Z.of_nat (Z.to_nat n_envs));
         [ f_equal; exact (comprehension_length mk n_envs start_index) | lia ]
       | intros k Hk;
         apply (comprehension_ranks mk n_envs start_index);
         [reflexivity | exact Hk] ]).
Qed.

(** C7 at [n_envs = 3], [start_index = 10]: three initializers, of ranks
    10, 11 and 12. *)
Lemma initializers_consecutive_ranks_witness :
  0 <= 3 /\
  (exists v,
     outcome_of (make_vec_env (EnvName "CartPole-v1") 3 None 10 true None None
                   None None sample_world) = Returned v /\
     map thunk_rank (env_fns_of v) = [10; 11; 12]) /\
  (exists v,
     outcome_of (make_atari_env "PongNoFrameskip-v4" 3 5 None 10 true None
                   true sample_world) = Returned v /\
     map thunk_rank (env_fns_of v) = [10; 11; 12]).
Proof.
  split; [lia |].
  destruct (initializers_consecutive_ranks 3 10 ltac:(lia)) as [Hvec Hatari].
  split.
  - destruct (Hvec (EnvName "CartPole-v1") None true None None None None
                sample_world) as [v [Hrun _]].
    exists v. split; [exact Hrun |].
    cbv in Hrun. injection Hrun as <-. reflexivity.
  - destruct (Hatari "PongNoFrameskip-v4" 5 None true None true sample_world)
      as [v [Hrun _]].
    exists v. split; [exact Hrun |].
    cbv in Hrun. injection Hrun as <-. reflexivity.
Defined.

(* ===================================================================== *)
(** ** Further properties of the vector makers *)
(* ===================================================================== *)

(** X1.  [make_vec_env] seeds the global generators only when a seed is
    given: with [seed = None] no [set_global_seeds] call is made, with a seed
    there is exactly one, with that seed, and it comes before the vector
    environment is built.  [make_atari_env] always makes the call. *)
Theorem global_seeding_of_vector_makers :
  (forall env_id n_envs seed start_index use_subprocess start_method
          monitor_path wrapper_class env_kwargs w,
     let r := make_vec_env env_id n_envs seed start_index use_subprocess
                start_method monitor_path wrapper_class env_kwargs w in
     global_seeds_in (trace_of r)
       = match seed with Some s => [s] | None => [] end /\
     exists v, last (trace_of r) (EvSetGlobalSeeds 0) = EvVecEnv v) /\
  (forall env_id num_env seed wrapper_kwargs start_index allow_early_resets
          start_method use_subprocess w,
     let r := make_atari_env env_id num_env seed wrapper_kwargs start_index
                allow_early_resets start_method use_subprocess w in
     global_seeds_in (trace_of r) = [seed] /\
     exists v, last (trace_of r) (EvSetGlobalSeeds 0) = EvVecEnv v).
Proof.
  split; intros; subst r.
  - rewrite make_vec_env_run. cbv zeta.
    destruct seed; split; try reflexivity; eexists; reflexivity.
  - rewrite make_atari_env_run. cbv zeta.
    split; [reflexivity | eexists; reflexivity].
Qed.

(** X2.  What an initializer of [make_vec_env] does when it is invoked: it
    creates the environment ([gym.make(env_id)] for a string,
    [env_id( **env_kwargs)] for a class, with [{}] when [env_kwargs] is
    [None]) and, when a seed is given, seeds the environment and its action
    space with that same seed, whatever the rank; nothing else happens. *)
Theorem make_vec_env_initializer_trace
    (env_id : env_spec) (n_envs : Z) (seed : option Z) (start_index : Z)
    (use_subprocess : bool) (start_method : option string)
    (monitor_path wrapper_class : option string) (env_kwargs : option kwargs)
    (w : world) :
  let base :=
    match env_id with
    | EnvName name => GymEnv name
    | EnvClass cls =>
        ClassEnv cls (match env_kwargs with Some kw => kw | None => [] end)
    end in
  exists v,
    outcome_of (make_vec_env env_id n_envs seed start_index use_subprocess
                  start_method monitor_path wrapper_class env_kwargs w)
      = Returned v /\
    Forall (fun th => forall w' : world,
              trace_of (call_thunk th w') =
                EvCreate base ::
                match seed with
                | Some s => [EvSeed base s; EvActionSpaceSeed base s]
                | None => []
                end)
           (env_fns_of v).
Proof.
  cbv zeta. rewrite make_vec_env_run. cbv zeta.
  eexists. split; [reflexivity |].
  assert (Hall : forall l : list Z,
            Forall (fun th => forall w' : world,
              trace_of (call_thunk th w') =
                EvCreate
                  match env_id with
                  | EnvName name => GymEnv name
                  | EnvClass cls =>
                      ClassEnv cls
                        (match env_kwargs with Some kw => kw | None => [] end)
                  end ::
                match seed with
                | Some s =>
                    [EvSeed
                       match env_id with
                       | EnvName name => GymEnv name
                       | EnvClass cls =>
                           ClassEnv cls
                             (match env_kwargs with
                              | Some kw => kw | None => [] end)
                       end s;
                     EvActionSpaceSeed
                       match env_id with
                       | EnvName name => GymEnv name
                       | EnvClass cls =>
                           ClassEnv cls
                             (match env_kwargs with
                              | Some kw => kw | None => [] end)
                       end s]
                | None => []
                end)
              (map (fun i => InitThunk
                      {| ic_env_id := env_id;
                         ic_env_kwargs := or_default env_kwargs [];
                         ic_seed := seed;
                         ic_wrapper_class := wrapper_class;
                         ic_rank := i + start_index |}) l)).
  { intros l. apply Forall_map, Forall_forall. intros i _ w'.
    cbn [call_thunk]. rewrite init_run.
    destruct env_id, env_kwargs, seed; reflexivity. }
  destruct ((n_envs =? 1) || negb use_subprocess); cbn [env_fns_of];
    apply Hall.
Qed.

(** The runs of all initializers of a [make_vec_env] result, in one world. *)
Lemma make_vec_env_thunk_runs
    (env_id : env_spec) (n_envs : Z) (seed : option Z) (start_index : Z)
    (use_subprocess : bool) (start_method : option string)
    (monitor_path wrapper_class : option string) (env_kwargs : option kwargs)
    (w w' : world) :
  exists v,
    outcome_of (make_vec_env env_id n_envs seed start_index use_subprocess
                  start_method monitor_path wrapper_class env_kwargs w)
      = Returned v /\
    map (fun th => call_thunk th w') (env_fns_of v) =
    map (fun _ : Z =>
           _init {| ic_env_id := env_id;
                    ic_env_kwargs := or_default env_kwargs [];
                    ic_seed := seed; ic_wrapper_class := None;
                    ic_rank := 0 |} w')
        (range n_envs).
Proof.
  rewrite make_vec_env_run. cbv zeta. eexists. split; [reflexivity |].
  destruct ((n_envs =? 1) || negb use_subprocess); cbn [env_fns_of];
    rewrite map_map; apply map_ext; intros i; cbn [call_thunk];
    rewrite !init_run; reflexivity.
Qed.

(** X3.  [monitor_path], [wrapper_class] and [start_index] have no effect on
    what the initializers of [make_vec_env] do: two calls that differ only in
    these arguments give initializers whose runs agree position by position
    (same events, same outcome).  In particular the wrapper class is never
    applied and no rank-specific monitor file is ever named. *)
Theorem make_vec_env_ignored_arguments
    (env_id : env_spec) (n_envs : Z) (seed : option Z)
    (start_index start_index' : Z)
    (use_subprocess : bool) (start_method : option string)
    (monitor_path monitor_path' wrapper_class wrapper_class' : option string)
    (env_kwargs : option kwargs) (w w' : world) :
  exists v v',
    outcome_of (make_vec_env env_id n_envs seed start_index use_subprocess
                  start_method monitor_path wrapper_class env_kwargs w)
      = Returned v /\
    outcome_of (make_vec_env env_id n_envs seed start_index' use_subprocess
                  start_method monitor_path' wrapper_class' env_kwargs w)
      = Returned v' /\
    map (fun th => call_thunk th w') (env_fns_of v)
      = map (fun th => call_thunk th w') (env_fns_of v').
Proof.
  destruct (make_vec_env_thunk_runs env_id n_envs seed start_index
              use_subprocess start_method monitor_path wrapper_class
              env_kwargs w w') as [v [Hv Hruns]].
  destruct (make_vec_env_thunk_runs env_id n_envs seed start_index'
              use_subprocess start_method monitor_path' wrapper_class'
              env_kwargs w w') as [v' [Hv' Hruns']].
  exists v, v'. repeat split; try assumption.
  now rewrite Hruns, Hruns'.
Qed.

(** X4.  [env_kwargs] reaches a class constructor only: when [env_id] is a
    string, line 40 calls [gym.make(env_id)] without it, so two calls that
    differ only in [env_kwargs] give initializers whose runs agree; and for
    any [env_id], passing [env_kwargs = None] is the same as passing [{}]. *)
Theorem make_vec_env_env_kwargs
    (n_envs : Z) (seed : option Z) (start_index : Z)
    (use_subprocess : bool) (start_method : option string)
    (monitor_path wrapper_class : option string) (w w' : world) :
  (forall (name : string) (env_kwargs env_kwargs' : option kwargs),
     exists v v',
       outcome_of (make_vec_env (EnvName name) n_envs seed start_index
                     use_subprocess start_method monitor_path wrapper_class
                     env_kwargs w) = Returned v /\
       outcome_of (make_vec_env (EnvName name) n_envs seed start_index
                     use_subprocess start_method monitor_path wrapper_class
                     env_kwargs' w) = Returned v' /\
       map (fun th => call_thunk th w') (env_fns_of v)
         = map (fun th => call_thunk th w') (env_fns_of v')) /\
  (forall env_id : env_spec,
     make_vec_env env_id n_envs seed start_index use_subprocess start_method
       monitor_path wrapper_class None w
     = make_vec_env env_id n_envs seed start_index use_subprocess start_method
         monitor_path wrapper_class (Some []) w).
Proof.
  split.
  - intros name kw kw'.
    destruct (make_vec_env_thunk_runs (EnvName name) n_envs seed start_index
                use_subprocess start_method monitor_path wrapper_class
                kw w w') as [v [Hv Hruns]].
    destruct (make_vec_env_thunk_runs (EnvName name) n_envs seed start_index
                use_subprocess start_method monitor_path wrapper_class
                kw' w w') as [v' [Hv' Hruns']].
    exists v, v'. repeat split; try assumption.
    rewrite Hruns, Hruns'. apply map_ext. intros _.
    rewrite !init_run. destruct seed; reflexivity.
  - intros env_id. now rewrite !make_vec_env_run.
Qed.

(* ===================================================================== *)
(** ** Further properties of the Atari initializers *)
(* ===================================================================== *)

(** X5.  Every initializer of [make_atari_env] returns when invoked, and
    returns [wrap_deepmind(Monitor(make_atari(env_id)))]: the bare Atari
    environment is seeded with [seed + rank] before it is wrapped, the
    Monitor gets [allow_early_resets] as passed, and [wrap_deepmind] gets
    [wrapper_kwargs] ([{}] when [None]). *)
Theorem make_atari_env_initializers_return
    (env_id : string) (num_env seed : Z) (wrapper_kwargs : option kwargs)
    (start_index : Z) (allow_early_resets : bool)
    (start_method : option string) (use_subprocess : bool) (w : world) :
  exists v,
    outcome_of (make_atari_env env_id num_env seed wrapper_kwargs start_index
                  allow_early_resets start_method use_subprocess w)
      = Returned v /\
    Forall (fun th => forall w' : world,
              exists filename,
                let base := AtariEnv env_id in
                let monitored :=
                  Monitored base filename
                    [("allow_early_resets", VBool allow_early_resets)] in
                let wrapped :=
                  Deepmind monitored
                    (match wrapper_kwargs with Some kw => kw | None => [] end)
                in
                call_thunk th w' =
                  ([EvCreate base; EvSeed base (seed + thunk_rank th);
                    EvCreate monitored; EvCreate wrapped],
                   Returned wrapped))
           (env_fns_of v).
Proof.
  rewrite make_atari_env_run. cbv zeta. eexists. split; [reflexivity |].
  assert (Hall : forall l : list Z,
            Forall (fun th => forall w' : world,
              exists filename,
                call_thunk th w' =
                  ([EvCreate (AtariEnv env_id);
                    EvSeed (AtariEnv env_id) (seed + thunk_rank th);
                    EvCreate
                      (Monitored (AtariEnv env_id) filename
                         [("allow_early_resets", VBool allow_early_resets)]);
                    EvCreate
                      (Deepmind
                         (Monitored (AtariEnv env_id) filename
                            [("allow_early_resets", VBool allow_early_resets)])
                         (match wrapper_kwargs with
                          | Some kw => kw | None => [] end))],
                   Returned
                     (Deepmind
                        (Monitored (AtariEnv env_id) filename
                           [("allow_early_resets", VBool allow_early_resets)])
                        (match wrapper_kwargs with
                         | Some kw => kw | None => [] end))))
              (map (fun i => AtariThunk
                      {| tc_env_id := env_id; tc_seed := seed;
                         tc_allow_early_resets := allow_early_resets;
                         tc_wrapper_kwargs := or_default wrapper_kwargs [];
                         tc_rank := i + start_index |}) l)).
  { intros l. apply Forall_map, Forall_forall. intros i _ w'.
    cbn [call_thunk thunk_rank].
    destruct (thunk_run
                {| tc_env_id := env_id; tc_seed := seed;
                   tc_allow_early_resets := allow_early_resets;
                   tc_wrapper_kwargs := or_default wrapper_kwargs [];
                   tc_rank := i + start_index |} w') as [filename Hrun].
    exists filename. cbv zeta in Hrun. rewrite Hrun.
    destruct wrapper_kwargs; reflexivity. }
  destruct ((num_env =? 1) || negb use_subprocess); cbn [env_fns_of];
    apply Hall.
Qed.

(** X6.  The file name given to Monitor by [make_robotics_env] and by the
    Atari initializer follows the logger: [None] when [logger.get_dir()] is
    [None], the empty string when it is empty ([and] yields its false left
    operand), and [os.path.join(logger.get_dir(), str(rank))] otherwise.
    [os.path.join] is therefore never called with [None]. *)
Theorem monitor_filename_follows_logger (rank : Z) (w : world) :
  let filename :=
    match logger_dir w with
    | None => VNone
    | Some d => if (d =? "")%string then VStr ""
                else VPathJoin (VStr d) (VStrOf (VInt rank))
    end in
  (forall env_id seed allow_early_resets,
     outcome_of (make_robotics_env env_id seed rank allow_early_resets w)
       = Returned
           (Monitored (Flattened (GymEnv env_id)
                         ["observation"; "desired_goal"])
              filename
              [("info_keywords", VTuple ["is_success"]);
               ("allow_early_resets", VBool allow_early_resets)])) /\
  (forall env_id seed allow_early_resets wrapper_kwargs,
     outcome_of (_thunk {| tc_env_id := env_id; tc_seed := seed;
                           tc_allow_early_resets := allow_early_resets;
                           tc_wrapper_kwargs := wrapper_kwargs;
                           tc_rank := rank |} w)
       = Returned
           (Deepmind
              (Monitored (AtariEnv env_id) filename
                 [("allow_early_resets", VBool allow_early_resets)])
              wrapper_kwargs)).
Proof.
  cbv zeta.
  assert (Hfile :
    monitor_file rank w =
      ([], Returned match logger_dir w with
                    | None => VNone
                    | Some d => if (d =? "")%string then VStr ""
                                else VPathJoin (VStr d) (VStrOf (VInt rank))
                    end)).
  { rewrite monitor_file_run. destruct (logger_dir w) as [d |]; cbn.
    - destruct (d =? "")%string eqn:Hd; cbn; [| reflexivity].
      apply String.eqb_eq in Hd. now subst d.
    - reflexivity. }
  split; intros.
  - unfold make_robotics_env, bind at 1 2 3 4.
    cbn -[monitor_file]. rewrite Hfile. reflexivity.
  - unfold _thunk, bind at 1 2 3.
    cbn -[monitor_file]. rewrite Hfile. reflexivity.
Qed.

Lemma thunk_seeds (c : thunk_closure) (w : world) :
  seeds_in (trace_of (_thunk c w))
    = [(AtariEnv (tc_env_id c), tc_seed c + tc_rank c)].
Proof.
  destruct (thunk_run c w) as [filename Hrun].
  cbv zeta in Hrun. now rewrite Hrun.
Qed.

(** X7.  The initializers of one [make_atari_env] call seed their
    environments with pairwise different seeds: for [0 <= i < j < num_env]
    the [env.seed] calls of the initializers at positions [i] and [j]
    differ. *)
Theorem make_atari_env_distinct_seeds
    (env_id : string) (num_env seed : Z) (wrapper_kwargs : option kwargs)
    (start_index : Z) (allow_early_resets : bool)
    (start_method : option string) (use_subprocess : bool) (w w' : world)
    (i j : Z) :
  0 <= i < j -> j < num_env ->
  exists v thi thj,
    outcome_of (make_atari_env env_id num_env seed wrapper_kwargs start_index
                  allow_early_resets start_method use_subprocess w)
      = Returned v /\
    nth_error (env_fns_of v) (Z.to_nat i) = Some thi /\
    nth_error (env_fns_of v) (Z.to_nat j) = Some thj /\
    seeds_in (trace_of (call_thunk thi w'))
      <> seeds_in (trace_of (call_thunk thj w')).
Proof.
  intros Hij Hj. rewrite make_atari_env_run. cbv zeta.
  set (mk := fun r => AtariThunk
               {| tc_env_id := env_id; tc_seed := seed;
                  tc_allow_early_resets := allow_early_resets;
                  tc_wrapper_kwargs := or_default wrapper_kwargs [];
                  tc_rank := r |}).
  eexists. exists (mk (i + start_index)), (mk (j + start_index)).
  split; [reflexivity |].
  assert (Hi : 0 <= i < num_env) by lia.
  assert (Hj' : 0 <= j < num_env) by lia.
  repeat split.
  - destruct ((num_env =? 1) || negb use_subprocess); cbn [env_fns_of];
      apply (comprehension_nth mk num_env start_index i Hi).
  - destruct ((num_env =? 1) || negb use_subprocess); cbn [env_fns_of];
      apply (comprehension_nth mk num_env start_index j Hj').
  - unfold mk. cbn [call_thunk]. rewrite !thunk_seeds. cbn.
    intros Heq. injection Heq as Heq. lia.
Qed.

(** X7 at [make_atari_env('PongNoFrameskip-v4', 3, 5, start_index=10)]:
    positions 0 and 2 seed with 15 and 17. *)
Lemma make_atari_env_distinct_seeds_witness :
  0 <= 0 < 2 /\ 2 < 3 /\
  exists v thi thj,
    outcome_of (make_atari_env "PongNoFrameskip-v4" 3 5 None 10 true None true
                  sample_world) = Returned v /\
    nth_error (env_fns_of v) 0 = Some thi /\
    nth_error (env_fns_of v) 2 = Some thj /\
    seeds_in (trace_of (call_thunk thi sample_world))
      <> seeds_in (trace_of (call_thunk thj sample_world)).
Proof.
  split; [lia |]. split; [lia |].
  exact (make_atari_env_distinct_seeds "PongNoFrameskip-v4" 3 5 None 10 true
           None true sample_world sample_world 0 2
           ltac:(lia) ltac:(lia)).
Defined.

(* ===================================================================== *)
(** ** Edge cases and unused inputs *)
(* ===================================================================== *)

Lemma range_nonpositive (n : Z) : n <= 0 -> range n = [].
Proof.
  intros Hn. unfold range. now replace (Z.to_nat n) with 0%nat by lia.
Qed.

(** X8.  With a count of zero or less, [range] is empty: both vector makers
    call a constructor exactly once and hand it an empty list of
    initializers, [SubprocVecEnv([], start_method=start_method)] when
    [use_subprocess] is true and [DummyVecEnv([])] otherwise. *)
Theorem vector_makers_nonpositive_count (n : Z) :
  n <= 0 ->
  (forall env_id seed start_index use_subprocess start_method monitor_path
          wrapper_class env_kwargs w,
     vec_envs_in
       (trace_of (make_vec_env env_id n seed start_index use_subprocess
                    start_method monitor_path wrapper_class env_kwargs w))
       = [if use_subprocess then SubprocVec [] start_method
          else DummyVec []]) /\
  (forall env_id seed wrapper_kwargs start_index allow_early_resets
          start_method use_subprocess w,
     vec_envs_in
       (trace_of (make_atari_env env_id n seed wrapper_kwargs start_index
                    allow_early_resets start_method use_subprocess w))
       = [if use_subprocess then SubprocVec [] start_method
          else DummyVec []]).
Proof.
  intros Hn.
  assert (Hne : (n =? 1) = false) by (apply Z.eqb_neq; lia).
  split; intros.
  - rewrite make_vec_env_run. cbv zeta.
    rewrite range_nonpositive, Hne by exact Hn.
    destruct use_subprocess, seed; reflexivity.
  - rewrite make_atari_env_run. cbv zeta.
    rewrite range_nonpositive, Hne by exact Hn.
    destruct use_subprocess; reflexivity.
Qed.

(** X8 at a count of -2. *)
Lemma vector_makers_nonpositive_count_witness :
  -2 <= 0 /\
  vec_envs_in
    (trace_of (make_vec_env (EnvName "CartPole-v1") (-2) None 0 false None
                 None None None sample_world)) = [DummyVec []] /\
  vec_envs_in
    (trace_of (make_atari_env "PongNoFrameskip-v4" (-2) 5 None 0 true None
                 true sample_world)) = [SubprocVec [] None].
Proof.
  split; [lia |].
  destruct (vector_makers_nonpositive_count (-2) ltac:(lia)) as [Hvec Hatari].
  split.
  - exact (Hvec (EnvName "CartPole-v1") None 0 false None None None None
             sample_world).
  - exact (Hatari "PongNoFrameskip-v4" 5 None 0 true None true sample_world).
Defined.

(** X10.  [start_method] matters only on the subprocess path: when the count
    is 1 or [use_subprocess] is false, two calls that differ only in
    [start_method] behave the same. *)
Theorem start_method_unused_without_subprocesses
    (n : Z) (use_subprocess : bool) (start_method start_method' : option string) :
  n = 1 \/ use_subprocess = false ->
  (forall env_id seed start_index monitor_path wrapper_class env_kwargs w,
     make_vec_env env_id n seed start_index use_subprocess start_method
       monitor_path wrapper_class env_kwargs w
     = make_vec_env env_id n seed start_index use_subprocess start_method'
         monitor_path wrapper_class env_kwargs w) /\
  (forall env_id seed wrapper_kwargs start_index allow_early_resets w,
     make_atari_env env_id n seed wrapper_kwargs start_index
       allow_early_resets start_method use_subprocess w
     = make_atari_env env_id n seed wrapper_kwargs start_index
         allow_early_resets start_method' use_subprocess w).
Proof.
  intros Hdummy.
  assert (Htest : (n =? 1) || negb use_subprocess = true).
  { destruct Hdummy as [-> | ->]; [reflexivity | apply orb_true_r]. }
  split; intros.
  - rewrite !make_vec_env_run. cbv zeta. now rewrite Htest.
  - rewrite !make_atari_env_run. cbv zeta. now rewrite Htest.
Qed.

(** X10 at one environment with [use_subprocess] true: 'fork' and 'spawn'
    give the same DummyVecEnv. *)
Lemma start_method_unused_without_subprocesses_witness :
  (1 = 1 \/ true = false) /\
  make_atari_env "PongNoFrameskip-v4" 1 5 None 0 true (Some "fork") true
    sample_world
  = make_atari_env "PongNoFrameskip-v4" 1 5 None 0 true (Some "spawn") true
      sample_world.
Proof.
  split; [left; reflexivity |].
  exact (proj2 (start_method_unused_without_subprocesses 1 true (Some "fork")
                  (Some "spawn") (or_introl eq_refl))
           "PongNoFrameskip-v4" 5 None 0 true sample_world).
Defined.

(* ===================================================================== *)
(** ** Global seeding of the single-environment makers *)
(* ===================================================================== *)

Lemma make_mujoco_env_run
    (env_id : string) (seed : Z) (allow_early_resets : bool) (w : world) :
  make_mujoco_env env_id seed allow_early_resets w =
    ([EvSetGlobalSeeds (seed + 10000 * mpi_rank w); EvCreate (GymEnv env_id)],
     Raised (NameError "rank")).
Proof. reflexivity. Qed.

(** X11.  [make_mujoco_env] offsets the global seed by the MPI rank: before
    it fails, two processes of different rank given the same [seed] have
    called [set_global_seeds] with different values. *)
Theorem make_mujoco_env_seed_per_mpi_rank
    (env_id : string) (seed : Z) (allow_early_resets : bool) (w1 w2 : world) :
  mpi_rank w1 <> mpi_rank w2 ->
  global_seeds_in (trace_of (make_mujoco_env env_id seed allow_early_resets w1))
    <> global_seeds_in
         (trace_of (make_mujoco_env env_id seed allow_early_resets w2)).
Proof.
  intros Hrank. rewrite !make_mujoco_env_run.
  cbn [trace_of fst global_seeds_in].
  intros Heq.
  assert (Hseed : seed + 10000 * mpi_rank w1 = seed + 10000 * mpi_rank w2)
    by congruence.
  lia.
Qed.

(** X11 at ranks 0 and 1 with seed 7: the global seeds are 7 and 10007. *)
Lemma make_mujoco_env_seed_per_mpi_rank_witness :
  mpi_rank {| logger_dir := None; mpi_rank := 0 |}
    <> mpi_rank {| logger_dir := None; mpi_rank := 1 |} /\
  global_seeds_in
    (trace_of (make_mujoco_env "Reacher-v2" 7 true
                 {| logger_dir := None; mpi_rank := 0 |}))
  <> global_seeds_in
       (trace_of (make_mujoco_env "Reacher-v2" 7 true
                    {| logger_dir := None; mpi_rank := 1 |})).
Proof.
  assert (Hr : mpi_rank {| logger_dir := None; mpi_rank := 0 |}
               <> mpi_rank {| logger_dir := None; mpi_rank := 1 |})
    by (cbn; lia).
  split; [exact Hr |].
  exact (make_mujoco_env_seed_per_mpi_rank "Reacher-v2" 7 true _ _ Hr).
Defined.

Lemma make_robotics_env_run
    (env_id : string) (seed rank : Z) (allow_early_resets : bool) (w : world) :
  make_robotics_env env_id seed rank allow_early_resets w =
    let flat := Flattened (GymEnv env_id) ["observation"; "desired_goal"] in
    let monitored :=
      Monitored flat
        (if dir_truthy (logger_dir w)
         then VPathJoin (dir_value (logger_dir w)) (VStrOf (VInt rank))
         else dir_value (logger_dir w))
        [("info_keywords", VTuple ["is_success"]);
         ("allow_early_resets", VBool allow_early_resets)] in
    ([EvSetGlobalSeeds seed; EvCreate (GymEnv env_id); EvCreate flat;
      EvCreate monitored; EvSeed monitored seed],
     Returned monitored).
Proof.
  cbv zeta. unfold make_robotics_env, bind at 1 2 3 4.
  cbn -[monitor_file]. rewrite monitor_file_run. reflexivity.
Qed.

(** X12.  [make_robotics_env] does not use the MPI rank: it calls
    [set_global_seeds] once, with [seed] itself, and its whole run is the
    same for every MPI rank. *)
Theorem make_robotics_env_ignores_mpi_rank
    (env_id : string) (seed rank : Z) (allow_early_resets : bool)
    (dir : option string) (r1 r2 : Z) :
  global_seeds_in
    (trace_of (make_robotics_env env_id seed rank allow_early_resets
                 {| logger_dir := dir; mpi_rank := r1 |})) = [seed] /\
  make_robotics_env env_id seed rank allow_early_resets
    {| logger_dir := dir; mpi_rank := r1 |}
  = make_robotics_env env_id seed rank allow_early_resets
      {| logger_dir := dir; mpi_rank := r2 |}.
Proof.
  rewrite !make_robotics_env_run. cbn. split; reflexivity.
Qed.
